(** * latex2anki: the packaging descriptor [setup.py]

    The repository's source is one Python file, [setup.py].  It imports
    [setup] from [setuptools] and calls it once with eight keyword
    arguments.  This development embeds that file as it is written: the text
    of the file, the tokens Python's tokenizer makes of it, the syntax tree of
    the two statements, and the run of the module, which performs one call of
    [setuptools.setup].  The facts the specification states about the
    descriptor are then proved about the dictionary of keyword arguments that
    this call receives. *)

From Stdlib Require Import Ascii String.
From stdpp Require Import base option list strings gmap.

Set Warnings "-register-all".

(** ** The text of [setup.py] *)

Module Source.

Definition newline : string := String "010"%char "".

(** The lines of the file, in order, without their line terminators. *)
Definition setup_py_lines : list string :=
  [ "#!/usr/bin/env python";
    "";
    "from setuptools import setup";
    "";
    "setup(name='latex2anki',";
    "      version='0.0.1',";
    "      description='convert LaTeX flash cards to Anki',";
    "      author='Juan M. Bello-Rivas',";
    "      author_email='jmbr@superadditive.com',";
    "      url='https://github.com/jmbr/latex2anki',";
    "      install_requires=['texsoup'],";
    "      scripts=['latex2anki'])" ].

(** The file: its lines separated by line feeds.  The last line carries no
    terminator. *)
Definition setup_py : string := String.concat newline setup_py_lines.

(** [str.splitlines] for line feeds: a terminator ends a line, and a
    terminator at the very end of the text opens no further line. *)
Fixpoint splitlines_go (cur : string) (s : string) : list string :=
  match s with
  | "" => match cur with "" => [] | _ => [String.rev cur] end
  | String c s' =>
      if Ascii.eqb c "010"%char
      then String.rev cur :: splitlines_go "" s'
      else splitlines_go (String c cur) s'
  end.
Definition splitlines : string → list string := splitlines_go "".

(** Number of line feed characters of a text. *)
Fixpoint count_newlines (s : string) : nat :=
  match s with
  | "" => 0
  | String c s' => (if Ascii.eqb c "010"%char then 1 else 0) + count_newlines s'
  end.

End Source.

(** ** Tokens *)

Module Lexer.

Inductive token : Type :=
| NAME (id : string)
| STRING (s : string)
| OP (c : ascii)
| NEWLINE.

Global Instance token_eq_dec : EqDecision token.
Proof. solve_decision. Defined.

Definition is_upper (c : ascii) : bool :=
  let n := nat_of_ascii c in (65 <=? n) && (n <=? 90).
Definition is_lower (c : ascii) : bool :=
  let n := nat_of_ascii c in (97 <=? n) && (n <=? 122).
Definition is_digit (c : ascii) : bool :=
  let n := nat_of_ascii c in (48 <=? n) && (n <=? 57).
Definition is_name_start (c : ascii) : bool :=
  is_upper c || is_lower c || Ascii.eqb c "_"%char.
Definition is_name_char (c : ascii) : bool :=
  is_name_start c || is_digit c.

(** What the tokenizer is in the middle of.  The accumulators hold the
    characters read so far, last one first. *)
Inductive mode : Type :=
| Code
| InName (acc : string)
| InString (acc : string)
| InComment.

(** The tokenizer's state: the mode, the bracket depth, and the tokens
    produced so far, last one first. *)
Record state : Type := mkState {
  st_mode : mode;
  st_depth : nat;
  st_out : list token
}.

Definition emit (t : token) (st : state) : state :=
  mkState Code (st_depth st) (t :: st_out st).

(** A logical line ends at a line feed outside brackets; blank lines and
    lines holding only a comment end no logical line. *)
Definition end_of_line (st : state) : state :=
  match st_depth st, st_out st with
  | 0, NEWLINE :: _ => mkState Code 0 (st_out st)
  | 0, [] => mkState Code 0 []
  | 0, out => mkState Code 0 (NEWLINE :: out)
  | d, out => mkState Code d out
  end.

(** One character read outside names, strings and comments. *)
Definition code_step (c : ascii) (st : state) : option state :=
  if Ascii.eqb c "#"%char then Some (mkState InComment (st_depth st) (st_out st))
  else if Ascii.eqb c "010"%char then Some (end_of_line st)
  else if Ascii.eqb c " "%char || Ascii.eqb c "009"%char then
    Some (mkState Code (st_depth st) (st_out st))
  else if Ascii.eqb c "'"%char then Some (mkState (InString "") (st_depth st) (st_out st))
  else if is_name_start c then
    Some (mkState (InName (String c "")) (st_depth st) (st_out st))
  else if Ascii.eqb c "("%char || Ascii.eqb c "["%char then
    Some (mkState Code (S (st_depth st)) (OP c :: st_out st))
  else if Ascii.eqb c ")"%char || Ascii.eqb c "]"%char then
    match st_depth st with
    | 0 => None
    | S d => Some (mkState Code d (OP c :: st_out st))
    end
  else if Ascii.eqb c ","%char || Ascii.eqb c "="%char || Ascii.eqb c "."%char then
    Some (emit (OP c) st)
  else None.

Definition step (c : ascii) (st : state) : option state :=
  match st_mode st with
  | Code => code_step c st
  | InName acc =>
      if is_name_char c
      then Some (mkState (InName (String c acc)) (st_depth st) (st_out st))
      else code_step c (emit (NAME (String.rev acc)) st)
  | InString acc =>
      if Ascii.eqb c "'"%char then Some (emit (STRING (String.rev acc)) st)
      else if Ascii.eqb c "010"%char || Ascii.eqb c "\"%char then None
      else Some (mkState (InString (String c acc)) (st_depth st) (st_out st))
  | InComment =>
      if Ascii.eqb c "010"%char then Some (end_of_line (mkState Code (st_depth st) (st_out st)))
      else Some st
  end.

(** At the end of the text a pending name is emitted, the last logical line
    is closed, and an open string or bracket is an error. *)
Definition finish (st : state) : option (list token) :=
  match st_mode st with
  | InString _ => None
  | m =>
      let st' := match m with
                 | InName acc => emit (NAME (String.rev acc)) st
                 | _ => st
                 end in
      match st_depth st' with
      | 0 => Some (rev (st_out (end_of_line st')))
      | S _ => None
      end
  end.

Fixpoint run (s : string) (st : state) : option (list token) :=
  match s with
  | "" => finish st
  | String c s' =>
      match step c st with
      | Some st' => run s' st'
      | None => None
      end
  end.

Definition tokenize (s : string) : option (list token) :=
  run s (mkState Code 0 []).

End Lexer.

(** ** Syntax *)

Module Ast.

Import Lexer.

(** Expressions of the fragment the descriptor is written in: string
    literals, list displays, names, and calls of a named function with
    positional and keyword arguments. *)
Inductive expr : Type :=
| EStr (s : string)
| EList (elts : list expr)
| EName (id : string)
| ECall (func : string) (args : list expr) (keywords : list (string * expr)).

Inductive stmt : Type :=
| ImportFrom (module : string) (names : list string)
| Expr (value : expr).

(** Words that open a statement outside the fragment. *)
Definition definition_keywords : list string := ["def"; "class"; "lambda"].

Definition compound_keywords : list string :=
  definition_keywords ++
  ["import"; "if"; "elif"; "else"; "for"; "while"; "try";
   "except"; "finally"; "with"; "return"; "yield"; "raise"; "assert";
   "del"; "global"; "nonlocal"; "pass"; "async"; "await"].

Definition is_keyword (id : string) : bool :=
  bool_decide (id ∈ "from" :: compound_keywords).

(** An argument list: positional arguments, then keyword arguments. *)
Record arguments : Type := mkArgs {
  positional : list expr;
  keyword : list (string * expr)
}.

Definition add_positional (e : expr) (a : arguments) : arguments :=
  mkArgs (e :: positional a) (keyword a).
Definition add_keyword (k : string) (e : expr) (a : arguments) : arguments :=
  mkArgs (positional a) ((k, e) :: keyword a).

(** The parser reads the tokens left to right.  [parse_expr] reads one
    expression, [parse_elts] the rest of a list display after its opening
    bracket, [parse_args] the rest of an argument list after its opening
    parenthesis; [kw] records that a keyword argument has been read, after
    which a positional one is an error.  Each returns what it read and the
    tokens that follow. *)
Fixpoint parse_expr (fuel : nat) (ts : list token) : option (expr * list token) :=
  match fuel with
  | 0 => None
  | S fuel =>
      match ts with
      | STRING s :: r => Some (EStr s, r)
      | OP "[" :: r =>
          '(es, r') ← parse_elts fuel r; Some (EList es, r')
      | NAME f :: OP "(" :: r =>
          if is_keyword f then None
          else '(a, r') ← parse_args fuel false r;
               Some (ECall f (positional a) (keyword a), r')
      | NAME x :: r => if is_keyword x then None else Some (EName x, r)
      | _ => None
      end
  end
with parse_elts (fuel : nat) (ts : list token) : option (list expr * list token) :=
  match fuel with
  | 0 => None
  | S fuel =>
      match ts with
      | OP "]" :: r => Some ([], r)
      | _ =>
          '(e, r) ← parse_expr fuel ts;
          match r with
          | OP "," :: r' => '(es, r'') ← parse_elts fuel r'; Some (e :: es, r'')
          | OP "]" :: r' => Some ([e], r')
          | _ => None
          end
      end
  end
with parse_args (fuel : nat) (kw : bool) (ts : list token)
    : option (arguments * list token) :=
  match fuel with
  | 0 => None
  | S fuel =>
      match ts with
      | OP ")" :: r => Some (mkArgs [] [], r)
      | NAME k :: OP "=" :: r =>
          if is_keyword k then None
          else
            '(e, r1) ← parse_expr fuel r;
            match r1 with
            | OP "," :: r2 =>
                '(a, r3) ← parse_args fuel true r2; Some (add_keyword k e a, r3)
            | OP ")" :: r2 => Some (mkArgs [] [(k, e)], r2)
            | _ => None
            end
      | _ =>
          if kw then None
          else
            '(e, r1) ← parse_expr fuel ts;
            match r1 with
            | OP "," :: r2 =>
                '(a, r3) ← parse_args fuel false r2; Some (add_positional e a, r3)
            | OP ")" :: r2 => Some (mkArgs [e] [], r2)
            | _ => None
            end
      end
  end.

(** The names of an import list: [a, b, c] up to the end of the line. *)
Fixpoint parse_names (ts : list token) : option (list string * list token) :=
  match ts with
  | NAME x :: NEWLINE :: r => if is_keyword x then None else Some ([x], r)
  | NAME x :: OP "," :: r =>
      if is_keyword x then None
      else '(xs, r') ← parse_names r; Some (x :: xs, r')
  | _ => None
  end.

(** A keyword argument may be given once in a call. *)
Fixpoint keywords_ok (e : expr) : bool :=
  match e with
  | EStr _ | EName _ => true
  | EList es => forallb keywords_ok es
  | ECall _ args kws =>
      bool_decide (NoDup kws.*1)
      && forallb keywords_ok args
      && forallb (λ kv, keywords_ok kv.2) kws
  end.

Definition parse_stmt (ts : list token) : option (stmt * list token) :=
  match ts with
  | NAME "from" :: NAME m :: NAME "import" :: r =>
      if is_keyword m then None
      else '(xs, r') ← parse_names r; Some (ImportFrom m xs, r')
  | _ =>
      '(e, r) ← parse_expr (length ts) ts;
      match r with
      | NEWLINE :: r' => if keywords_ok e then Some (Expr e, r') else None
      | _ => None
      end
  end.

Fixpoint parse_stmts (fuel : nat) (ts : list token) : option (list stmt) :=
  match ts with
  | [] => Some []
  | _ =>
      match fuel with
      | 0 => None
      | S fuel =>
          '(s, r) ← parse_stmt ts;
          ss ← parse_stmts fuel r;
          Some (s :: ss)
      end
  end.

(** A module is a sequence of statements; every statement holds at least one
    token, so as many rounds as there are tokens suffice. *)
Definition parse_module (src : string) : option (list stmt) :=
  ts ← tokenize src; parse_stmts (length ts) ts.

End Ast.

(** ** Running a module *)

Module Interp.

Import Ast.

(** Values: strings, lists, and objects imported from another module, known
    by the module and the name they were imported under. *)
Inductive value : Type :=
| VStr (s : string)
| VList (items : list value)
| VExtern (module : string) (name : string).

(** A call of an imported function, as the callee receives it: positional
    arguments and the dictionary of keyword arguments. *)
Record call : Type := mkCall {
  callee : string * string;
  call_args : list value;
  call_kwargs : gmap string value
}.

(** The state of a run: the module's global names and the calls of imported
    functions performed so far, oldest first. *)
Record state : Type := mkState {
  globals : gmap string value;
  calls : list call
}.

Definition initial : state := mkState ∅ [].

(** Evaluation of an argument.  The result of a call of an imported function
    is an object the fragment has no value for, so a call is run as a
    statement only. *)
Fixpoint eval (g : gmap string value) (e : expr) : option value :=
  match e with
  | EStr s => Some (VStr s)
  | EList es =>
      VList <$> (fix go (es : list expr) : option (list value) :=
                   match es with
                   | [] => Some []
                   | e :: es' => v ← eval g e; vs ← go es'; Some (v :: vs)
                   end) es
  | EName x => g !! x
  | ECall _ _ _ => None
  end.

Fixpoint eval_keywords (g : gmap string value) (kws : list (string * expr))
    : option (gmap string value) :=
  match kws with
  | [] => Some ∅
  | (k, e) :: kws' => v ← eval g e; m ← eval_keywords g kws'; Some (<[k:=v]> m)
  end.

(** One statement.  The run follows the file as far as the file decides it:
    an import binds its names to objects of the named module, and a call of
    an imported function is recorded with the arguments it receives.  Whether
    the module is found, and what the callee does with its arguments, is
    decided outside the file and is no part of the run. *)
Definition exec (st : state) (s : stmt) : option state :=
  match s with
  | ImportFrom m xs =>
      Some (mkState (foldr (λ x g, <[x:=VExtern m x]> g) (globals st) xs) (calls st))
  | Expr (ECall f args kws) =>
      match globals st !! f with
      | Some (VExtern m x) =>
          vs ← mapM (eval (globals st)) args;
          kw ← eval_keywords (globals st) kws;
          Some (mkState (globals st) (calls st ++ [mkCall (m, x) vs kw]))
      | _ => None
      end
  | Expr e => _ ← eval (globals st) e; Some st
  end.

Fixpoint run_module (st : state) (body : list stmt) : option state :=
  match body with
  | [] => Some st
  | s :: body' => st' ← exec st s; run_module st' body'
  end.


End Interp.

(** ** What [setuptools.setup] does with its keyword arguments

    [setuptools] is not part of this repository.  The definitions below record
    which keywords of its [setup] function declare requirements, and the kind
    of each metadata keyword.  What [setup] then builds or installs is not
    recorded: it is decided by [setuptools] and by the files beside
    [setup.py], not by this file. *)

Module Setuptools.

Import Interp.

Definition setup : string * string := ("setuptools", "setup").

(** The items of a list-valued keyword; an absent keyword has none. *)
Definition attr_items (attrs : gmap string value) (k : string) : list value :=
  match attrs !! k with
  | Some (VList vs) => vs
  | _ => []
  end.

(** Keywords that declare a requirement on another distribution. *)
Definition requirement_keywords : list string :=
  ["install_requires"; "setup_requires"; "tests_require"; "extras_require";
   "requires"].

Definition declared_requirements (attrs : gmap string value) : list value :=
  flat_map (attr_items attrs) requirement_keywords.

(** The kinds of metadata field the specification enumerates. *)
Inductive field_kind : Type :=
| PackageName
| Version
| AuthorInfo
| Dependency
| ScriptEntry
| Descriptive.

Global Instance field_kind_eq_dec : EqDecision field_kind.
Proof. solve_decision. Defined.

(** The kind of a keyword of [setup], over the keywords of the metadata and
    requirement vocabulary; keywords that name code or data to build
    ([packages], [py_modules], [ext_modules], [data_files], [cmdclass] and
    the like) have none. *)
Definition kind_of (k : string) : option field_kind :=
  if bool_decide (k = "name") then Some PackageName
  else if bool_decide (k = "version") then Some Version
  else if bool_decide (k ∈ ["author"; "author_email"; "maintainer"; "maintainer_email"])
  then Some AuthorInfo
  else if bool_decide (k ∈ requirement_keywords) then Some Dependency
  else if bool_decide (k ∈ ["scripts"; "entry_points"]) then Some ScriptEntry
  else if bool_decide (k ∈ ["description"; "long_description"; "url"; "download_url";
                            "license"; "keywords"; "classifiers"; "platforms"])
  then Some Descriptive
  else None.

Definition count_kind (kd : field_kind) (ks : list string) : nat :=
  length (filter (λ k, kind_of k = Some kd) ks).

End Setuptools.

(** ** The run of [setup.py] *)

Module SetupPy.

Import Lexer Ast Interp Setuptools.

(** The syntax tree of the file: the import and the call. *)
Definition setup_py_ast : list stmt :=
  [ ImportFrom "setuptools" ["setup"];
    Expr (ECall "setup" []
            [ ("name", EStr "latex2anki");
              ("version", EStr "0.0.1");
              ("description", EStr "convert LaTeX flash cards to Anki");
              ("author", EStr "Juan M. Bello-Rivas");
              ("author_email", EStr "jmbr@superadditive.com");
              ("url", EStr "https://github.com/jmbr/latex2anki");
              ("install_requires", EList [EStr "texsoup"]);
              ("scripts", EList [EStr "latex2anki"]) ]) ].

(** Running the file from its text: tokenize, parse, execute. *)
Definition run_setup_py : option state :=
  body ← parse_module Source.setup_py; run_module initial body.

(** The keyword arguments of the file's call of [setuptools.setup], when the
    run performs that call, without positional arguments, and no other. *)
Definition setup_attrs : option (gmap string value) :=
  st ← run_setup_py;
  match calls st with
  | [c] =>
      if bool_decide (callee c = setup ∧ call_args c = [])
      then Some (call_kwargs c) else None
  | _ => None
  end.

(** The keywords of the call, in the order the file writes them. *)
Definition setup_keywords : list string :=
  match parse_module Source.setup_py with
  | Some [_; Expr (ECall _ _ kws)] => kws.*1
  | _ => []
  end.

End SetupPy.

(** ** Interface elements a text can mention *)

Module Interface.

Import Lexer.

(** [contains needle hay]: [needle] occurs in [hay]. *)
Fixpoint contains (needle hay : string) : bool :=
  String.prefix needle hay
  || match hay with
     | "" => false
     | String _ hay' => contains needle hay'
     end.

(** Lower case of a text of ASCII. *)
Definition to_lower (c : ascii) : ascii :=
  if is_upper c then ascii_of_nat (nat_of_ascii c + 32) else c.

Fixpoint lower (s : string) : string :=
  match s with
  | "" => ""
  | String c s' => String (to_lower c) (lower s')
  end.

(** The pieces of a text between the characters that satisfy [sep]; there is
    always at least one piece, and a piece may be empty. *)
Fixpoint pieces (sep : ascii → bool) (s : string) : list string :=
  match s with
  | "" => [""]
  | String c s' =>
      if sep c then "" :: pieces sep s'
      else match pieces sep s' with
           | w :: ws => String c w :: ws
           | [] => [String c ""]
           end
  end.

(** The non-empty pieces. *)
Definition runs (sep : ascii → bool) (s : string) : list string :=
  filter (λ w, w ≠ "") (pieces sep s).

(** White space, quotes, brackets and punctuation that set the words of a
    text apart.  A hyphen, a dot, a slash and an at sign stay in the word. *)
Definition is_delimiter (c : ascii) : bool :=
  Ascii.is_space c
  || Ascii.eqb c "034"%char
  || bool_decide (c ∈ list_ascii_of_string "'`()[]{}<>,;:=|!?#").

Definition atoms (s : string) : list string := runs is_delimiter s.

(** The maximal runs of letters, digits and underscores. *)
Definition identifiers (s : string) : list string :=
  runs (λ c, negb (is_name_char c)) s.

(** A command-line flag is a word that starts with a hyphen, as [-o] and
    [--output] do, also inside brackets: [[-o FILE]]. *)
Definition mentions_flag (s : string) : bool :=
  existsb (String.prefix "-") (atoms s).

(** The name of an environment variable as it is customarily written: at
    least two characters, capitals, digits and underscores, a capital
    first. *)
Definition is_constant_name (w : string) : bool :=
  (2 <=? String.length w)
  && match w with String c _ => is_upper c | "" => false end
  && forallb (λ c, is_upper c || is_digit c || Ascii.eqb c "_"%char)
       (list_ascii_of_string w).

(** An environment variable is referred to by a dollar or percent sign,
    through the process environment, or by a name in capitals. *)
Definition mentions_environment (s : string) : bool :=
  contains "$" s || contains "%" s
  || existsb (λ n, contains n (lower s)) ["environ"; "getenv"]
  || existsb is_constant_name (identifiers s).

(** An exit code is spoken of as an exit, a status, a return or an error
    code, in any case of letters. *)
Definition mentions_exit_code (s : string) : bool :=
  existsb (λ n, contains n (lower s)) ["exit"; "status"; "return"; "errno"; "code"].

Fixpoint drop_empty (ws : list string) : list string :=
  match ws with
  | "" :: ws' => drop_empty ws'
  | _ => ws
  end.

(** The extension of a file name in a word: what follows the last dot of the
    last path segment, when it is made of letters and digits with a letter
    among them.  Of an address [local@domain] the local part is read; dots
    that end the word are not counted. *)
Definition extension (w : string) : option string :=
  let loc := default "" (head (pieces (Ascii.eqb "@"%char) w)) in
  let seg := default "" (last (pieces (Ascii.eqb "/"%char) loc)) in
  match drop_empty (rev (pieces (Ascii.eqb "."%char) seg)) with
  | ext :: _ :: _ =>
      if forallb (λ c, is_upper c || is_lower c || is_digit c) (list_ascii_of_string ext)
         && existsb (λ c, is_upper c || is_lower c) (list_ascii_of_string ext)
      then Some ext else None
  | _ => None
  end.

(** Words that speak of the format of a file. *)
Definition format_words : list string :=
  [".tex"; ".anki"; ".txt"; "apkg"; "csv"; "tsv"; "json"; "xml"; "html";
   "utf-8"; "unicode"; "encoding"; "delimiter"; "separator"; "mime";
   "file format"].

(** A detail of a file format: a file name with an extension, or a word that
    speaks of a format, in any case of letters. *)
Definition mentions_file_format (s : string) : bool :=
  existsb (λ w, bool_decide (is_Some (extension w))) (atoms s)
  || existsb (λ n, contains n (lower s)) format_words.

Definition mentions_interface (s : string) : bool :=
  mentions_flag s || mentions_environment s || mentions_exit_code s
  || mentions_file_format s.


(** Names through which a program reads input or writes output. *)
Definition io_names : list string :=
  ["open"; "input"; "raw_input"; "print"; "read"; "readline"; "readlines";
   "write"; "writelines"; "stdin"; "stdout"; "stderr"].

(** The names among the tokens of a text. *)
Definition names_of (ts : list token) : list string :=
  omap (λ t, match t with NAME x => Some x | _ => None end) ts.

(** The names a syntax tree calls, in the order of the text. *)
Fixpoint called_by (e : Ast.expr) : list string :=
  match e with
  | Ast.EStr _ | Ast.EName _ => []
  | Ast.EList es => flat_map called_by es
  | Ast.ECall f args kws =>
      f :: flat_map called_by args ++ flat_map (λ kv, called_by kv.2) kws
  end.

Definition called_names (body : list Ast.stmt) : list string :=
  flat_map (λ s, match s with
                 | Ast.ImportFrom _ _ => []
                 | Ast.Expr e => called_by e
                 end) body.

Definition imported_modules (body : list Ast.stmt) : list string :=
  omap (λ s, match s with
             | Ast.ImportFrom m _ => Some m
             | Ast.Expr _ => None
             end) body.

End Interface.

(** ** Names and their binding *)

Module Scope.

Import Ast.

(** An argument the run can evaluate when the names in [bound] are bound:
    a string, a list of such arguments, or a bound name. *)
Fixpoint simple (bound : list string) (e : expr) : bool :=
  match e with
  | EStr _ => true
  | EList es => forallb (simple bound) es
  | EName x => bool_decide (x ∈ bound)
  | ECall _ _ _ => false
  end.

Definition stmt_ok (bound : list string) (s : stmt) : bool :=
  match s with
  | ImportFrom _ _ => true
  | Expr (ECall f args kws) =>
      bool_decide (f ∈ bound)
      && forallb (simple bound) args
      && forallb (λ kv, simple bound kv.2) kws
  | Expr e => simple bound e
  end.

(** The names a statement binds. *)
Definition binds (s : stmt) : list string :=
  match s with
  | ImportFrom _ xs => xs
  | Expr _ => []
  end.

(** Every statement uses only names that an earlier statement has bound. *)
Fixpoint well_scoped (bound : list string) (body : list stmt) : bool :=
  match body with
  | [] => true
  | s :: body' => stmt_ok bound s && well_scoped (binds s ++ bound) body'
  end.

(** The names an expression refers to, called or not. *)
Fixpoint names_in (e : expr) : list string :=
  match e with
  | EStr _ => []
  | EList es => flat_map names_in es
  | EName x => [x]
  | ECall f args kws =>
      f :: flat_map names_in args ++ flat_map (λ kv, names_in kv.2) kws
  end.

Definition used_names (body : list stmt) : list string :=
  flat_map (λ s, match s with
                 | ImportFrom _ _ => []
                 | Expr e => names_in e
                 end) body.

Definition imported_names (body : list stmt) : list string :=
  flat_map binds body.

End Scope.

(** ** The form of the metadata values *)

Module Metadata.

Import Interp.

(** [split_on sep s]: the pieces of [s] between occurrences of [sep], as
    [s.split(sep)] gives them; there is always at least one piece. *)
Fixpoint split_on (sep : ascii) (s : string) : list string :=
  match s with
  | "" => [""]
  | String c s' =>
      if Ascii.eqb c sep then "" :: split_on sep s'
      else match split_on sep s' with
           | w :: ws => String c w :: ws
           | [] => [String c ""]
           end
  end.

Definition chars (s : string) : list ascii := list_ascii_of_string s.

(** A non-empty run of decimal digits, as a number. *)
Definition decimal (s : string) : option nat :=
  match s with
  | "" => None
  | _ => foldl (λ acc c, n ← acc; d ← Ascii.is_nat c; Some (10 * n + d))
           (Some 0) (chars s)
  end.

(** The release segment of a version: decimal numbers separated by dots. *)
Definition parse_version (s : string) : option (list nat) :=
  mapM decimal (split_on "." s).

(** A printable character of ASCII, the space included. *)
Definition is_printable (c : ascii) : bool :=
  let n := nat_of_ascii c in (32 <=? n) && (n <=? 126).

(** The last piece of a path written with slashes. *)
Definition last_segment (s : string) : string :=
  default "" (last (split_on "/" s)).

(** An address [local@domain]: one at sign, a non-empty local part, and a
    domain of at least two non-empty labels. *)
Definition is_address (s : string) : bool :=
  match split_on "@" s with
  | [loc; dom] =>
      negb (String.eqb loc "")
      && (2 <=? length (split_on "." dom))
      && forallb (λ l, negb (String.eqb l "")) (split_on "." dom)
      && forallb (λ c, is_printable c && negb (Ascii.eqb c " ")) (chars s)
  | _ => false
  end.

(** Characters that a requirement needs in order to say more than a name: a
    version specifier, extras, a marker, an address, a list. *)
Definition specifier_chars : list ascii := chars "<>=!~;[]()@, ".

Definition is_alnum (c : ascii) : bool :=
  Lexer.is_upper c || Lexer.is_lower c || Lexer.is_digit c.

(** The name of a project and nothing more, as a requirement writes it:
    letters, digits, hyphens, underscores and dots, with a letter or a digit
    first and last. *)
Definition is_name_only (s : string) : bool :=
  match chars s, last (chars s) with
  | c :: _, Some d =>
      is_alnum c && is_alnum d
      && forallb (λ c, is_alnum c || bool_decide (c ∈ chars "-_.")) (chars s)
  | _, _ => false
  end.

(** A file name without a directory part. *)
Definition is_file_name (s : string) : bool :=
  negb (String.eqb s "") && negb (String.eqb s ".") && negb (String.eqb s "..")
  && bool_decide (split_on "/" s = [s]).

(** The shape of a keyword's value. *)
Inductive shape : Type :=
| AString
| AStringList.

Global Instance shape_eq_dec : EqDecision shape.
Proof. solve_decision. Defined.

Definition shape_of (v : value) : option shape :=
  match v with
  | VStr _ => Some AString
  | VList vs =>
      if forallb (λ v, match v with VStr _ => true | _ => false end) vs
      then Some AStringList else None
  | VExtern _ _ => None
  end.

(** The shape [setup] reads a keyword's value as: the descriptive fields are
    strings, and the fields that list requirements, scripts, modules or
    packages are lists of strings. *)
Definition expected_shape (k : string) : option shape :=
  if bool_decide (k ∈ ["name"; "version"; "description"; "long_description";
                       "author"; "author_email"; "maintainer";
                       "maintainer_email"; "url"; "download_url"; "license"])
  then Some AString
  else if bool_decide (k ∈ ["install_requires"; "setup_requires"; "tests_require";
                            "scripts"; "py_modules"; "packages"; "classifiers"])
  then Some AStringList
  else None.

(** The keyword arguments as the call of [setup] writes them, lines 5 to 12
    of the file. *)
Definition written_attrs : gmap string value :=
  list_to_map
    [ ("name", VStr "latex2anki");
      ("version", VStr "0.0.1");
      ("description", VStr "convert LaTeX flash cards to Anki");
      ("author", VStr "Juan M. Bello-Rivas");
      ("author_email", VStr "jmbr@superadditive.com");
      ("url", VStr "https://github.com/jmbr/latex2anki");
      ("install_requires", VList [VStr "texsoup"]);
      ("scripts", VList [VStr "latex2anki"]) ].

(** The interpreter line of a text: the words that follow [#!] on its first
    line. *)
Definition shebang (s : string) : option (list string) :=
  match s with
  | String "#" (String "!" s') =>
      match Source.splitlines s' with
      | l :: _ => Some (String.words l)
      | [] => Some []
      end
  | _ => None
  end.

(** The text without its first line. *)
Definition drop_first_line (s : string) : string :=
  String.concat Source.newline (drop 1 (Source.splitlines s)).

End Metadata.

(** ** General facts *)

Section contains_facts.

Lemma prefix_app (n b : string) : String.prefix n (n +:+ b) = true.
Proof.
  induction n as [|c n IH]; simpl.
  - by destruct b.
  - destruct (ascii_dec c c); [done | congruence].
Qed.

Lemma prefix_split (n h : string) :
  String.prefix n h = true → ∃ b, h = n +:+ b.
Proof.
  revert h. induction n as [|c n IH]; intros h Hp.
  - by exists h.
  - destruct h as [|d h]; simpl in Hp; [done|].
    destruct (ascii_dec c d) as [->|]; [|done].
    destruct (IH h Hp) as [b ->]. by exists b.
Qed.

Lemma contains_nil (n : string) :
  Interface.contains n "" = String.prefix n "".
Proof. unfold Interface.contains. apply orb_false_r. Qed.

Lemma contains_cons (n : string) (c : ascii) (h : string) :
  Interface.contains n (String c h)
  = String.prefix n (String c h) || Interface.contains n h.
Proof. reflexivity. Qed.

(** [contains] decides occurrence as a substring. *)
Lemma contains_spec (n h : string) :
  Interface.contains n h = true ↔ ∃ a b, h = a +:+ n +:+ b.
Proof.
  split.
  - induction h as [|c h IH].
    + rewrite contains_nil. intros Hp.
      destruct (prefix_split _ _ Hp) as [b Hb]. by exists "", b.
    + rewrite contains_cons. intros [Hp|Hc]%orb_true_iff.
      * destruct (prefix_split _ _ Hp) as [b Hb]. by exists "", b.
      * destruct (IH Hc) as (a & b & ->). by exists (String c a), b.
  - intros (a & b & ->). induction a as [|c a IH].
    + change ("" +:+ n +:+ b) with (n +:+ b).
      destruct (n +:+ b) as [|d r] eqn:E.
      * by rewrite contains_nil, <- E, prefix_app.
      * by rewrite contains_cons, <- E, prefix_app.
    + change (String c a +:+ n +:+ b) with (String c (a +:+ n +:+ b)).
      rewrite contains_cons, IH. apply orb_true_r.
Qed.

End contains_facts.

Section setuptools_facts.

Import Interp Setuptools.

Variable attrs : gmap string value.

Lemma attr_items_absent (k : string) : attrs !! k = None → attr_items attrs k = [].
Proof. unfold attr_items. by intros ->. Qed.

End setuptools_facts.

Section interp_facts.

Import Ast Interp.

(** The dictionary a call receives has the keywords the call writes. *)
Lemma eval_keywords_dom g (kws : list (string * expr)) (m : gmap string value) :
  eval_keywords g kws = Some m → dom m = list_to_set kws.*1.
Proof.
  revert m. induction kws as [|[k e] kws IH]; intros m; simpl.
  - intros [= <-]. by rewrite dom_empty_L.
  - destruct (eval g e) as [v|]; simpl; [|done].
    destruct (eval_keywords g kws) as [m'|]; simpl; [|done].
    intros [= <-]. rewrite dom_insert_L. by rewrite (IH m').
Qed.

End interp_facts.

(** ** The file *)

Lemma splitlines_setup_py :
  Source.splitlines Source.setup_py = Source.setup_py_lines.
Proof. vm_compute. reflexivity. Qed.

(** The file has 350 characters, 11 of them line feeds. *)
Lemma setup_py_size :
  String.length Source.setup_py = 350 ∧ Source.count_newlines Source.setup_py = 11.
Proof. split; vm_compute; reflexivity. Qed.

(** The parser reads the text of the file as the tree [setup_py_ast]. *)
Lemma parse_setup_py :
  Ast.parse_module Source.setup_py = Some SetupPy.setup_py_ast.
Proof. vm_compute. reflexivity. Qed.

(** The run ends, having bound [setup] and performed one call. *)
Lemma run_setup_py_calls :
  ∃ st c, SetupPy.run_setup_py = Some st
    ∧ Interp.globals st !! "setup" = Some (Interp.VExtern "setuptools" "setup")
    ∧ Interp.calls st = [c]
    ∧ Interp.callee c = Setuptools.setup
    ∧ Interp.call_args c = [].
Proof. do 2 eexists. split; [vm_compute; reflexivity|]. repeat split. Qed.

(** The dictionary the call receives is the one the file writes. *)
Lemma setup_attrs_written : SetupPy.setup_attrs = Some Metadata.written_attrs.
Proof. vm_compute. reflexivity. Qed.

(** ** The fragment on other texts

    The tokenizer, the parser and the run accept the descriptor; the examples
    below show what they do with texts that differ from it. *)

Section fragment_examples.

Import Lexer Ast Interp Interface.

Example tokenize_skips_comments :
  tokenize "# a comment" = Some [] ∧
  tokenize "f('a')  # call" = Some [NAME "f"; OP "("; STRING "a"; OP ")"; NEWLINE].
Proof. split; vm_compute; reflexivity. Qed.

Example tokenize_rejects_open_string : tokenize "f('a" = None.
Proof. vm_compute. reflexivity. Qed.

Example tokenize_rejects_open_bracket : tokenize "f(['a']" = None.
Proof. vm_compute. reflexivity. Qed.

Example parse_accepts_trailing_comma :
  parse_module "f(a=['x', 'y',],)" = Some [Expr (ECall "f" [] [("a", EList [EStr "x"; EStr "y"])])].
Proof. vm_compute. reflexivity. Qed.

Example parse_rejects_repeated_keyword : parse_module "f(a='x', a='y')" = None.
Proof. vm_compute. reflexivity. Qed.

Example parse_rejects_positional_after_keyword : parse_module "f(a='x', 'y')" = None.
Proof. vm_compute. reflexivity. Qed.

Example parse_rejects_def : parse_module "def f(x)" = None.
Proof. vm_compute. reflexivity. Qed.

(** Calling a name that was not imported stops the run. *)
Example run_rejects_unbound_name :
  (parse_module "setup(name='x')" ≫= run_module initial) = None.
Proof. vm_compute. reflexivity. Qed.

Example names_of_sees_print :
  (names_of <$> tokenize "print('x')") = Some ["print"].
Proof. vm_compute. reflexivity. Qed.

Example mentions_interface_examples :
  mentions_interface "write to --output" = true
  ∧ mentions_interface "reads $HOME" = true
  ∧ mentions_interface "exit status 1" = true
  ∧ mentions_interface "cards.apkg" = true
  ∧ mentions_interface "Bello-Rivas" = false.
Proof. repeat split; vm_compute; reflexivity. Qed.

Example mentions_flag_examples :
  mentions_flag "usage: latex2anki [-o FILE]" = true
  ∧ mentions_flag "pass --deck=Default" = true
  ∧ mentions_flag "Juan M. Bello-Rivas" = false.
Proof. repeat split; vm_compute; reflexivity. Qed.

Example mentions_environment_examples :
  mentions_environment "honours LATEX2ANKI_HOME" = true
  ∧ mentions_environment "reads os.environ" = true
  ∧ mentions_environment "convert LaTeX flash cards to Anki" = false.
Proof. repeat split; vm_compute; reflexivity. Qed.

Example mentions_exit_code_examples :
  mentions_exit_code "returns status 2" = true
  ∧ mentions_exit_code "Exit code 1 on error" = true
  ∧ mentions_exit_code "convert LaTeX flash cards to Anki" = false.
Proof. repeat split; vm_compute; reflexivity. Qed.

Example mentions_file_format_examples :
  mentions_file_format "writes out.pdf" = true
  ∧ mentions_file_format "reads '.latex' and notes.md files" = true
  ∧ mentions_file_format "tab-separated, UTF-8 encoding" = true
  ∧ extension "cards.tar.gz" = Some "gz"
  ∧ extension "0.0.1" = None
  ∧ extension "jmbr@superadditive.com" = None
  ∧ mentions_file_format "https://github.com/jmbr/latex2anki" = false
  ∧ mentions_file_format "Juan M. Bello-Rivas" = false.
Proof. repeat split; vm_compute; reflexivity. Qed.

Example is_name_only_examples :
  Metadata.is_name_only "texsoup" = true
  ∧ Metadata.is_name_only "tex-soup.2_x" = true
  ∧ Metadata.is_name_only "-texsoup" = false
  ∧ Metadata.is_name_only "..." = false
  ∧ Metadata.is_name_only "texsoup>=0.1" = false
  ∧ Metadata.is_name_only "texsoup[extra]" = false
  ∧ Metadata.is_name_only "" = false.
Proof. repeat split; vm_compute; reflexivity. Qed.

Example kind_of_examples :
  Setuptools.kind_of "packages" = None
  ∧ Setuptools.kind_of "py_modules" = None
  ∧ Setuptools.kind_of "maintainer" = Some Setuptools.AuthorInfo.
Proof. repeat split; vm_compute; reflexivity. Qed.

End fragment_examples.

(** ** The claims of the specification *)

Section claims.

Import Lexer Ast Interp Setuptools Interface SetupPy.

(** [run_file] runs the file and names the dictionary its call receives;
    [by_decision] settles a decidable closed statement by evaluation. *)
Local Ltac run_file :=
  exists Metadata.written_attrs; split; [exact setup_attrs_written|].
Local Ltac by_decision := apply (bool_decide_unpack _); vm_compute; exact I.

(** C1: the descriptor declares exactly one installed executable script, named
    [latex2anki]: the [scripts] list that [setup] receives is the one-element
    list ['latex2anki'], and no [entry_points] keyword declares another. *)
Theorem scripts_is_single_latex2anki :
  ∃ attrs, setup_attrs = Some attrs
    ∧ attrs !! "scripts" = Some (VList [VStr "latex2anki"])
    ∧ length (attr_items attrs "scripts") = 1
    ∧ attrs !! "entry_points" = None.
Proof. run_file. repeat split; vm_compute; reflexivity. Qed.

(** C2: the descriptor declares exactly one runtime dependency, the
    LaTeX-parsing library the file names as [texsoup]: the [install_requires]
    list that [setup] receives has length one, its element is 'texsoup', no
    other keyword declares a requirement, and so all declared requirements are
    that one element. *)
Theorem install_requires_single_dependency :
  ∃ attrs d, setup_attrs = Some attrs
    ∧ attrs !! "install_requires" = Some (VList [d])
    ∧ d = VStr "texsoup"
    ∧ length (attr_items attrs "install_requires") = 1
    ∧ Forall (λ k, attrs !! k = None)
        ["setup_requires"; "tests_require"; "extras_require"; "requires"]
    ∧ declared_requirements attrs = [d].
Proof.
  exists Metadata.written_attrs, (VStr "texsoup").
  split; [exact setup_attrs_written|].
  split; [vm_compute; reflexivity|].
  split; [reflexivity|].
  split; [vm_compute; reflexivity|].
  split; [by_decision | vm_compute; reflexivity].
Qed.

(** C3: the source is a file of 12 lines that holds packaging metadata only:
    its statements are the import of [setup] from [setuptools] and one call of
    [setup]; no other function is called, no [def], [class] or [lambda]
    occurs, and no name that reads input or writes output occurs. *)
Theorem setup_py_is_twelve_lines_of_metadata :
  length (Source.splitlines Source.setup_py) = 12
  ∧ parse_module Source.setup_py = Some setup_py_ast
  ∧ (∃ kws, setup_py_ast =
       [ImportFrom "setuptools" ["setup"]; Expr (ECall "setup" [] kws)])
  ∧ imported_modules setup_py_ast = ["setuptools"]
  ∧ called_names setup_py_ast = ["setup"]
  ∧ (∃ st c, run_setup_py = Some st ∧ calls st = [c] ∧ callee c = setup)
  ∧ ∃ ts, tokenize Source.setup_py = Some ts
      ∧ Forall (λ x, (x ∉ definition_keywords) ∧ (x ∉ io_names)) (names_of ts).
Proof.
  split; [vm_compute; reflexivity|].
  split; [vm_compute; reflexivity|].
  split; [eexists; reflexivity|].
  split; [reflexivity|].
  split; [reflexivity|].
  split.
  - do 2 eexists. split; [vm_compute; reflexivity|]. split; reflexivity.
  - eexists. split; [vm_compute; reflexivity|]. by_decision.
Qed.

(** C4: every keyword argument of the call is of a kind the specification
    enumerates, and the kinds are all present: one package name, one version,
    author information ([author] and [author_email]), one dependency
    declaration, one script entry point, and the descriptive [description] and
    [url]. *)
Theorem setup_keywords_are_the_enumerated_kinds :
  ∃ attrs, setup_attrs = Some attrs
    ∧ dom attrs = list_to_set setup_keywords
    ∧ setup_keywords =
        ["name"; "version"; "description"; "author"; "author_email"; "url";
         "install_requires"; "scripts"]
    ∧ Forall (λ k, is_Some (kind_of k)) setup_keywords
    ∧ (kind_of <$> setup_keywords) =
        Some <$> [PackageName; Version; Descriptive; AuthorInfo; AuthorInfo;
                  Descriptive; Dependency; ScriptEntry]
    ∧ count_kind PackageName setup_keywords = 1
    ∧ count_kind Version setup_keywords = 1
    ∧ count_kind Dependency setup_keywords = 1
    ∧ count_kind ScriptEntry setup_keywords = 1.
Proof.
  run_file.
  split; [by_decision|].
  split; [vm_compute; reflexivity|].
  split; [by_decision|].
  repeat split; vm_compute; reflexivity.
Qed.


(** C7: the one declared dependency is [texsoup]: the [install_requires] list
    that [setup] receives is ['texsoup']. *)
Theorem install_requires_is_texsoup :
  ∃ attrs, setup_attrs = Some attrs
    ∧ attrs !! "install_requires" = Some (VList [VStr "texsoup"]).
Proof. run_file. vm_compute; reflexivity. Qed.

(** C8: the package name and the single script have the same name: the [name]
    argument is 'latex2anki' and the [scripts] list is ['latex2anki']. *)
Theorem name_equals_script_name :
  ∃ attrs n, setup_attrs = Some attrs
    ∧ attrs !! "name" = Some (VStr n)
    ∧ attrs !! "scripts" = Some (VList [VStr n])
    ∧ n = "latex2anki".
Proof.
  exists Metadata.written_attrs. eexists. split; [exact setup_attrs_written|].
  repeat split; vm_compute; reflexivity.
Qed.

(** The call passes no keyword that names modules, packages, extensions or
    data to build or install.  What an installation then provides is decided
    by [setuptools] and by the files beside [setup.py]. *)
Lemma setup_passes_no_module_keyword :
  ∃ attrs, setup_attrs = Some attrs
    ∧ Forall (λ k, attrs !! k = None)
        ["packages"; "py_modules"; "ext_modules"; "package_dir"; "package_data";
         "data_files"; "headers"; "entry_points"].
Proof. run_file. by_decision. Qed.

End claims.


(** ** Names are bound before they are used *)

Section scope_facts.

Import Ast Interp Scope.

Lemma simple_names bound :
  ∀ e, simple bound e = true → ∀ x, x ∈ names_in e → x ∈ bound.
Proof.
  fix IH 1. intros [s|es|y|f args kws] He x Hx; simpl in *.
  - by apply elem_of_nil in Hx.
  - induction es as [|e es IHes]; simpl in *; [by apply elem_of_nil in Hx|].
    apply andb_true_iff in He as [He Hes].
    apply elem_of_app in Hx as [Hx|Hx]; [by apply (IH e) | by apply IHes].
  - apply bool_decide_eq_true in He. by apply list_elem_of_singleton in Hx as ->.
  - done.
Qed.

Lemma simple_names_list bound (es : list expr) :
  forallb (simple bound) es = true →
  ∀ x, x ∈ flat_map names_in es → x ∈ bound.
Proof.
  induction es as [|e es IH]; simpl; intros He x Hx; [by apply elem_of_nil in Hx|].
  apply andb_true_iff in He as [He Hes].
  apply elem_of_app in Hx as [Hx|Hx]; [by apply (simple_names bound e) | by apply IH].
Qed.

Lemma simple_names_keywords bound (kws : list (string * expr)) :
  forallb (λ kv, simple bound kv.2) kws = true →
  ∀ x, x ∈ flat_map (λ kv, names_in kv.2) kws → x ∈ bound.
Proof.
  induction kws as [|[k e] kws IH]; simpl; intros He x Hx; [by apply elem_of_nil in Hx|].
  apply andb_true_iff in He as [He Hes].
  apply elem_of_app in Hx as [Hx|Hx]; [by apply (simple_names bound e) | by apply IH].
Qed.

Lemma stmt_ok_names bound s :
  stmt_ok bound s = true → ∀ x, x ∈ used_names [s] → x ∈ bound.
Proof.
  intros Hs x Hx. unfold used_names in Hx. simpl in Hx. rewrite app_nil_r in Hx.
  destruct s as [m xs|e]; [by apply elem_of_nil in Hx|].
  destruct e as [s|es|y|f args kws];
    try by apply (simple_names bound _ Hs).
  simpl in Hs. apply andb_true_iff in Hs as [[Hf Ha]%andb_true_iff Hk].
  apply bool_decide_eq_true in Hf.
  simpl in Hx. apply elem_of_cons in Hx as [->|Hx]; [done|].
  apply elem_of_app in Hx as [Hx|Hx].
  - by apply (simple_names_list bound args).
  - by apply (simple_names_keywords bound kws).
Qed.

(** What [well_scoped] checks: a name used by a statement is bound at the
    start or by a statement that comes earlier in the text. *)
Lemma well_scoped_bound_before_use body : ∀ bound,
  well_scoped bound body = true →
  ∀ i s x, body !! i = Some s → x ∈ used_names [s] →
    x ∈ bound ∨ x ∈ imported_names (take i body).
Proof.
  induction body as [|s0 body IH]; intros bound Hb i s x Hi Hx; [done|].
  simpl in Hb. apply andb_true_iff in Hb as [Hs Hb].
  destruct i as [|i]; simpl in Hi.
  - injection Hi as ->. left. by apply (stmt_ok_names bound s).
  - destruct (IH _ Hb i s x Hi Hx) as [Hin|Hin].
    + apply elem_of_app in Hin as [Hin|Hin]; [|by left].
      right. unfold imported_names. simpl. apply elem_of_app. by left.
    + right. unfold imported_names. simpl. apply elem_of_app. by right.
Qed.

(** When no keyword is written twice, the dictionary a call receives holds
    under each keyword the value of the expression written for it. *)
Lemma eval_keywords_lookup g (kws : list (string * expr)) (m : gmap string value) :
  NoDup kws.*1 → eval_keywords g kws = Some m →
  ∀ k e, (k, e) ∈ kws → m !! k = eval g e.
Proof.
  revert m. induction kws as [|[k' e'] kws IH]; intros m Hnd Hm k e Hin.
  - by apply elem_of_nil in Hin.
  - simpl in Hnd. apply NoDup_cons in Hnd as [Hk' Hnd]. simpl in Hm.
    destruct (eval g e') as [v'|] eqn:Hv'; simpl in Hm; [|done].
    destruct (eval_keywords g kws) as [m'|] eqn:Hm'; simpl in Hm; [|done].
    injection Hm as <-.
    apply elem_of_cons in Hin as [[= -> ->]|Hin].
    + by rewrite lookup_insert_eq.
    + rewrite lookup_insert_ne.
      * by apply (IH m').
      * intros ->. apply Hk'. apply list_elem_of_fmap. by exists (k, e).
Qed.

End scope_facts.

(** ** Splitting and joining *)

Section split_facts.

Import Metadata.

Lemma split_on_nonempty sep s : split_on sep s ≠ [].
Proof.
  destruct s as [|c s]; simpl; [done|].
  destruct (Ascii.eqb c sep); [done|]. by destruct (split_on sep s).
Qed.

Lemma concat_cons_cons sep w w' ws :
  String.concat sep (w :: w' :: ws) = w +:+ sep +:+ String.concat sep (w' :: ws).
Proof. reflexivity. Qed.

Lemma concat_cons_char sep c w ws :
  String.concat sep (String c w :: ws) = String c (String.concat sep (w :: ws)).
Proof. by destruct ws. Qed.

(** Joining the pieces with the separator gives the text back. *)
Lemma concat_split_on sep s :
  String.concat (String sep "") (split_on sep s) = s.
Proof.
  induction s as [|c s IH]; [done|]. simpl.
  destruct (Ascii.eqb_spec c sep) as [->|Hne].
  - destruct (split_on sep s) as [|w ws] eqn:E; [by destruct (split_on_nonempty sep s)|].
    rewrite concat_cons_cons, IH. done.
  - destruct (split_on sep s) as [|w ws] eqn:E; [by destruct (split_on_nonempty sep s)|].
    rewrite concat_cons_char. by rewrite IH.
Qed.

(** No piece holds the separator. *)
Lemma split_on_free sep s :
  Forall (λ w, sep ∉ chars w) (split_on sep s).
Proof.
  induction s as [|c s IH]; simpl.
  - constructor; [|done]. apply not_elem_of_nil.
  - destruct (Ascii.eqb_spec c sep) as [->|Hne].
    + constructor; [apply not_elem_of_nil | done].
    + revert IH. destruct (split_on sep s) as [|w ws] eqn:E; intros IH;
        [by destruct (split_on_nonempty sep s)|].
      apply Forall_cons in IH as [Hw Hws]. constructor; [|done].
      unfold chars in *. simpl. intros [->|?]%elem_of_cons; [done | by apply Hw].
Qed.

(** A name and nothing more holds no character that a specifier, extras, a
    marker or an address would need. *)
Lemma name_only_no_specifier s :
  is_name_only s = true → Forall (λ c, c ∉ specifier_chars) (chars s).
Proof.
  unfold is_name_only. destruct (chars s) as [|c0 cs] eqn:E; [done|].
  destruct (last (c0 :: cs)) as [d|]; [|done].
  intros [_ Hall]%andb_true_iff.
  apply Forall_forall. intros c Hc Hbad.
  rewrite forallb_forall in Hall.
  assert (Hok : is_alnum c || bool_decide (c ∈ chars "-_.") = true)
    by (apply Hall; by apply list_elem_of_In).
  unfold specifier_chars, chars in Hbad. simpl in Hbad.
  repeat (apply elem_of_cons in Hbad as [->|Hbad]; [by vm_compute in Hok|]).
  by apply elem_of_nil in Hbad.
Qed.

End split_facts.

(** ** Further facts about the descriptor *)

Section descriptor_facts.

Import Lexer Ast Interp Setuptools Scope Metadata SetupPy.

Local Ltac written :=
  exists written_attrs; split; [exact setup_attrs_written|].
Local Ltac decided := apply (bool_decide_unpack _); vm_compute; exact I.

(** X1: the file imports exactly the one name it uses, [setup], and the
    import stands before the call: no statement uses a name that an earlier
    statement has not bound. *)
Theorem setup_py_binds_setup_before_use :
  used_names setup_py_ast = ["setup"]
  ∧ imported_names setup_py_ast = ["setup"]
  ∧ well_scoped [] setup_py_ast = true
  ∧ imported_names (take 1 setup_py_ast) = ["setup"]
  ∧ used_names (take 1 setup_py_ast) = [].
Proof. repeat split; vm_compute; reflexivity. Qed.

(** X2: every character of the file is a printable character of ASCII or a
    line feed: the file holds no tab, no carriage return and no character
    outside ASCII. *)
Theorem setup_py_is_printable_ascii :
  Forall (λ c, is_printable c = true ∨ c = "010"%char) (chars Source.setup_py).
Proof. decided. Qed.

(** X3: the [version] the call passes is '0.0.1': three decimal numbers
    separated by dots, 0, 0 and 1. *)
Theorem version_is_release_0_0_1 :
  ∃ attrs v, setup_attrs = Some attrs
    ∧ attrs !! "version" = Some (VStr v)
    ∧ split_on "." v = ["0"; "0"; "1"]
    ∧ parse_version v = Some [0; 0; 1].
Proof.
  exists written_attrs, "0.0.1". split; [exact setup_attrs_written|].
  repeat split; vm_compute; reflexivity.
Qed.

(** X4: the [url] the call passes is an https address whose last path segment
    is the package [name]. *)
Theorem url_ends_in_package_name :
  ∃ attrs u n, setup_attrs = Some attrs
    ∧ attrs !! "url" = Some (VStr u)
    ∧ attrs !! "name" = Some (VStr n)
    ∧ String.prefix "https://" u = true
    ∧ last_segment u = n.
Proof.
  exists written_attrs. do 2 eexists. split; [exact setup_attrs_written|].
  split; [vm_compute; reflexivity|].
  split; [vm_compute; reflexivity|].
  split; vm_compute; reflexivity.
Qed.

(** X5: the [author_email] the call passes is a well-formed address: one at
    sign, a non-empty local part, a domain of two non-empty labels, and no
    space. *)
Theorem author_email_is_address :
  ∃ attrs a, setup_attrs = Some attrs
    ∧ attrs !! "author_email" = Some (VStr a)
    ∧ is_address a = true
    ∧ split_on "@" a = ["jmbr"; "superadditive.com"].
Proof.
  exists written_attrs. eexists. split; [exact setup_attrs_written|].
  split; [vm_compute; reflexivity|].
  split; vm_compute; reflexivity.
Qed.

(** X6: every keyword's value has the shape [setup] reads it as: [name],
    [version], [description], [author], [author_email] and [url] are strings,
    [install_requires] and [scripts] are lists of strings. *)
Theorem setup_values_have_expected_shape :
  ∃ attrs, setup_attrs = Some attrs
    ∧ Forall (λ kv, is_Some (expected_shape kv.1)
                    ∧ shape_of kv.2 = expected_shape kv.1)
        (map_to_list attrs).
Proof. written. decided. Qed.

(** X7: the first line of the file is an interpreter line that runs [python]
    through [/usr/bin/env]; to Python it is a comment, and the file without
    it has the same tokens and the same syntax tree. *)
Theorem shebang_runs_python_through_env :
  shebang Source.setup_py = Some ["/usr/bin/env"; "python"]
  ∧ tokenize (drop_first_line Source.setup_py) = tokenize Source.setup_py
  ∧ parse_module (drop_first_line Source.setup_py) = Some setup_py_ast.
Proof. repeat split; vm_compute; reflexivity. Qed.

(** X8: the requirement the call declares is the bare project name
    'texsoup': lower-case letters only, hence a name and nothing more, with
    no character that a version specifier, extras, a marker or an address
    would need. *)
Theorem requirement_is_unpinned :
  ∃ attrs r, setup_attrs = Some attrs
    ∧ attrs !! "install_requires" = Some (VList [VStr r])
    ∧ r = "texsoup"
    ∧ forallb Lexer.is_lower (chars r) = true
    ∧ is_name_only r = true
    ∧ Forall (λ c, c ∉ specifier_chars) (chars r).
Proof.
  exists written_attrs, "texsoup". split; [exact setup_attrs_written|].
  split; [vm_compute; reflexivity|].
  split; [reflexivity|].
  split; [vm_compute; reflexivity|].
  assert (Hn : is_name_only "texsoup" = true) by (vm_compute; reflexivity).
  split; [exact Hn | exact (name_only_no_specifier _ Hn)].
Qed.

(** X9: the script the call lists is a plain file name without a directory
    part: it names a file beside [setup.py]. *)
Theorem script_is_plain_file_name :
  ∃ attrs p, setup_attrs = Some attrs
    ∧ attrs !! "scripts" = Some (VList [VStr p])
    ∧ is_file_name p = true
    ∧ "/"%char ∉ chars p.
Proof.
  exists written_attrs. eexists. split; [exact setup_attrs_written|].
  split; [vm_compute; reflexivity|].
  split; [vm_compute; reflexivity|].
  decided.
Qed.

(** X10: the call writes each of its eight keywords once, and [setup]
    receives under each keyword the value written for it: the dictionary has
    as many entries as the call has keyword arguments. *)
Theorem every_keyword_reaches_setup :
  ∃ attrs kws, setup_attrs = Some attrs
    ∧ setup_py_ast = [ImportFrom "setuptools" ["setup"]; Expr (ECall "setup" [] kws)]
    ∧ NoDup kws.*1
    ∧ size attrs = length kws
    ∧ length kws = 8
    ∧ Forall (λ kv, attrs !! kv.1 = eval ∅ kv.2) kws.
Proof.
  exists written_attrs. eexists. split; [exact setup_attrs_written|].
  split; [reflexivity|].
  assert (Hnd : NoDup (setup_keywords)) by decided.
  split; [exact Hnd|].
  split; [vm_compute; reflexivity|].
  split; [reflexivity|].
  apply Forall_forall. intros [k e] Hin.
  apply (eval_keywords_lookup ∅ _ written_attrs Hnd); [vm_compute; reflexivity | exact Hin].
Qed.

End descriptor_facts.
